(** * German tax identifiers (faker/providers/ssn/de_DE): VAT ID and eTIN

    A shallow embedding of [faker.providers.ssn.de_DE.Provider] and the
    properties its specification states about it.

    Python [str] values are lists of Unicode code points, Python [int]s are
    [Z].  Exceptions are values of [result]; the provider's random
    collaborators thread an explicit generator state. *)

From Stdlib Require Import ZArith NArith Lia.
From Stdlib Require Import Ascii String.
From stdpp Require Import base numbers list gmap strings.

Open Scope N_scope.

(** ** Python strings *)

(** A code point, and a [str]: the sequence of its code points. *)
Abbreviation char := N (only parsing).
Abbreviation str := (list N) (only parsing).

Definition chr (a : ascii) : char := N_of_ascii a.

(** The [str] denoted by an ASCII literal of the source. *)
Definition py (s : string) : str := chr <$> list_ascii_of_string s.

Definition in_range (lo hi : ascii) (c : char) : bool :=
  (chr lo <=? c) && (c <=? chr hi).

(** [startswith p s]: [s.startswith(p)]. *)
Fixpoint startswith (p s : str) : bool :=
  match p, s with
  | [], _ => true
  | _ :: _, [] => false
  | a :: p', b :: s' => (a =? b) && startswith p' s'
  end.

(** [s.replace(old, new)] for a non-empty [old]: the occurrences of [old]
    are found from the left and do not overlap.  [skip] counts the
    characters of a matched occurrence that are still to be passed over. *)
Fixpoint replace_from (old new : str) (skip : nat) (s : str) : str :=
  match s with
  | [] => []
  | c :: s' =>
      match skip with
      | S k => replace_from old new k s'
      | O =>
          if startswith old s
          then new ++ replace_from old new (length old - 1) s'
          else c :: replace_from old new 0 s'
      end
  end.

Definition replace (old new s : str) : str := replace_from old new 0 s.

(** [re.sub(cls, "", s)] for a one-character class [cls]: every character
    of the class is deleted, the others keep their order. *)
Definition re_sub_delete (cls : char -> bool) (s : str) : str :=
  List.filter (fun c => negb (cls c)) s.

(** The classes [[A-Z]], [[^A-Z]], [[AEIOU]] and [[^AEIOU]]. *)
Definition cls_A_Z (c : char) : bool := in_range "A" "Z" c.
Definition cls_not_A_Z (c : char) : bool := negb (cls_A_Z c).
Definition cls_AEIOU (c : char) : bool := existsb (N.eqb c) (py "AEIOU").
Definition cls_not_AEIOU (c : char) : bool := negb (cls_AEIOU c).

(** [s.ljust(width, fill)] and [s.rjust(width, fill)]. *)
Definition ljust (width : nat) (fill : char) (s : str) : str :=
  s ++ replicate (width - length s) fill.
Definition rjust (width : nat) (fill : char) (s : str) : str :=
  replicate (width - length s) fill ++ s.

(** [s[-n:]] for [n > 0]: the last [n] characters, all of [s] when it is
    shorter. *)
Definition last_chars (n : nat) (s : str) : str := drop (length s - n) s.

(** ASCII case mapping of [str.upper]. *)
Definition ascii_upper (c : char) : char :=
  if in_range "a" "z" c then c - 32 else c.

(** [str(n)] for an [int]. *)
Fixpoint uint_digits (d : Decimal.uint) : str :=
  match d with
  | Decimal.Nil => []
  | Decimal.D0 d => chr "0" :: uint_digits d
  | Decimal.D1 d => chr "1" :: uint_digits d
  | Decimal.D2 d => chr "2" :: uint_digits d
  | Decimal.D3 d => chr "3" :: uint_digits d
  | Decimal.D4 d => chr "4" :: uint_digits d
  | Decimal.D5 d => chr "5" :: uint_digits d
  | Decimal.D6 d => chr "6" :: uint_digits d
  | Decimal.D7 d => chr "7" :: uint_digits d
  | Decimal.D8 d => chr "8" :: uint_digits d
  | Decimal.D9 d => chr "9" :: uint_digits d
  end.

Definition str_of_int (n : Z) : str :=
  match Z.to_int n with
  | Decimal.Pos d => uint_digits d
  | Decimal.Neg d => chr "-" :: uint_digits d
  end.

(** ** Exceptions and the generator's state *)

Inductive exn : Type :=
| KeyError_str (key : str)
| KeyError_int (key : Z)
| IndexError.

Inductive result (A : Type) : Type :=
| Return (a : A)
| Raise (e : exn).
Arguments Return {A} a.
Arguments Raise {A} e.

#[global] Instance result_ret : MRet result := fun A a => Return a.
#[global] Instance result_bind : MBind result := fun A B f m =>
  match m with
  | Return a => f a
  | Raise e => Raise e
  end.

(** [d[key]] on a dict. *)
Definition getitem_str {V} (d : gmap N V) (key : char) : result V :=
  match d !! key with
  | Some v => Return v
  | None => Raise (KeyError_str [key])
  end.
Definition getitem_int {V} (d : gmap Z V) (key : Z) : result V :=
  match d !! key with
  | Some v => Return v
  | None => Raise (KeyError_int key)
  end.

(** [s[i]] on a [str] for [i >= 0]. *)
Definition index_str (s : str) (i : Z) : result str :=
  match s !! Z.to_nat i with
  | Some c => Return [c]
  | None => Raise IndexError
  end.

(** The random source of [self.generator]: the numbers it will draw, and how
    many were drawn so far. *)
Record rng : Type := { tape : nat -> N; cursor : nat }.

(** A method of the provider: it may draw from the generator and may raise. *)
Definition Gen (A : Type) : Type := rng -> result A * rng.

#[global] Instance Gen_ret : MRet Gen := fun A a g => (Return a, g).
#[global] Instance Gen_bind : MBind Gen := fun A B f m g =>
  match m g with
  | (Return a, g') => f a g'
  | (Raise e, g') => (Raise e, g')
  end.

Definition lift {A} (r : result A) : Gen A := fun g => (r, g).

Definition draw : Gen N := fun g =>
  (Return (tape g (cursor g)), {| tape := tape g; cursor := S (cursor g) |}).

(** [datetime.date]: the three fields [etin] reads. *)
Record date : Type := { year : Z; month : Z; day : Z }.

(** The invariant of [datetime.date]: [MINYEAR <= year <= MAXYEAR], a month
    of the year and a day of that month. *)
Definition is_leap (y : Z) : bool :=
  ((y mod 4 =? 0) && (negb (y mod 100 =? 0) || (y mod 400 =? 0)))%Z.

Definition days_in_month (y m : Z) : Z :=
  if (m =? 2)%Z then (if is_leap y then 29 else 28)%Z
  else if ((m =? 4) || (m =? 6) || (m =? 9) || (m =? 11))%Z then 30%Z
  else 31%Z.

Definition valid_date (d : date) : bool :=
  ((1 <=? year d) && (year d <=? 9999) &&
   (1 <=? month d) && (month d <=? 12) &&
   (1 <=? day d) && (day d <=? days_in_month (year d) (month d)))%Z.

(** ** The class constants *)

Definition vat_id_formats : list str := [py "DE#########"].

(** The two dicts of [_etin_check_weight]. *)
Definition check_weights_0 : gmap N Z :=
  list_to_map
    [ (chr "A", 0); (chr "B", 1); (chr "C", 2); (chr "D", 3); (chr "E", 4);
      (chr "F", 5); (chr "G", 6); (chr "H", 7); (chr "I", 8); (chr "J", 9);
      (chr "K", 10); (chr "L", 11); (chr "M", 12); (chr "N", 13);
      (chr "O", 14); (chr "P", 15); (chr "Q", 16); (chr "R", 17);
      (chr "S", 18); (chr "T", 19); (chr "U", 20); (chr "V", 21);
      (chr "W", 22); (chr "X", 23); (chr "Y", 24); (chr "Z", 25);
      (chr "0", 0); (chr "1", 1); (chr "2", 2); (chr "3", 3); (chr "4", 4);
      (chr "5", 5); (chr "6", 6); (chr "7", 7); (chr "8", 8); (chr "9", 9)
    ]%Z.

Definition check_weights_1 : gmap N Z :=
  list_to_map
    [ (chr "A", 1); (chr "B", 0); (chr "C", 5); (chr "D", 7); (chr "E", 9);
      (chr "F", 13); (chr "G", 15); (chr "H", 17); (chr "I", 19);
      (chr "J", 21); (chr "K", 2); (chr "L", 4); (chr "M", 18);
      (chr "N", 20); (chr "O", 11); (chr "P", 3); (chr "Q", 6); (chr "R", 8);
      (chr "S", 12); (chr "T", 14); (chr "U", 16); (chr "V", 10);
      (chr "W", 22); (chr "X", 23); (chr "Y", 24); (chr "Z", 25);
      (chr "0", 1); (chr "1", 0); (chr "2", 5); (chr "3", 7); (chr "4", 9);
      (chr "5", 13); (chr "6", 15); (chr "7", 17); (chr "8", 19);
      (chr "9", 21)
    ]%Z.

Definition MONTH_LETTER : gmap Z (list N) :=
  list_to_map
    [ (1, py "A"); (2, py "B"); (3, py "C"); (4, py "D"); (5, py "E");
      (6, py "F"); (7, py "G"); (8, py "H"); (9, py "I"); (10, py "J");
      (11, py "K"); (12, py "L") ]%Z.

(** [string.ascii_uppercase]. *)
Definition ascii_uppercase : str := py "ABCDEFGHIJKLMNOPQRSTUVWXYZ".

(** ** The check character *)

Definition _etin_check_weight (position : nat) (value : char) : result Z :=
  let index := if (position mod 2 =? 0)%nat then 0%nat else 1%nat in
  getitem_str (match index with O => check_weights_0 | _ => check_weights_1 end)
              value.

(** The loop [for index, character in enumerate(etin_stub)], entered at
    [index] with the running [_sum]. *)
Fixpoint sum_check_weights (index : nat) (etin_stub : str) (_sum : Z)
  : result Z :=
  match etin_stub with
  | [] => Return _sum
  | character :: rest =>
      w ← _etin_check_weight index character;
      sum_check_weights (S index) rest (_sum + w)%Z
  end.

Definition _etin_check_character (etin_stub : str) : result (list N) :=
  _sum ← sum_check_weights 0 etin_stub 0%Z;
  let mod_26 := (_sum mod 26)%Z in
  index_str ascii_uppercase mod_26.

(** ** Unicode data for the examples

    The fragment of the Unicode character database that the worked example
    of the specification touches: U+00FC decomposes into [u] and the
    combining diaeresis U+0308, whose combining class is 230. *)

Definition nfkd_u_diaeresis (s : str) : str :=
  s ≫= (fun c => if c =? 252 then [chr "u"; 776] else [c]).

Definition combining_diaeresis (c : char) : N :=
  if c =? 776 then 230 else 0.

Definition upper_identity (c : char) : str := [c].

(** ** The specification's wording *)

(** The consonants and the vowels of a string of letters, in their order. *)
Definition consonants_of (letters : str) : str :=
  List.filter (fun c => negb (cls_AEIOU c)) letters.
Definition vowels_of (letters : str) : str := List.filter cls_AEIOU letters.

(** The quartet as the specification words it: the first four consonants,
    then vowels from the end of the vowel sequence backwards up to length
    four, then [X] up to length four. *)
Definition quartet_spec (letters : str) : str :=
  let first_consonants := take 4 (consonants_of letters) in
  let last_vowels :=
    take (4 - length first_consonants) (reverse (vowels_of letters)) in
  let padding :=
    replicate (4 - length first_consonants - length last_vowels) (chr "X") in
  first_consonants ++ last_vowels ++ padding.

(** The characters of a well-formed stub: [A-Z] and [0-9]. *)
Definition is_stub_char (c : char) : bool :=
  in_range "A" "Z" c || in_range "0" "9" c.
Definition is_digit (c : char) : bool := in_range "0" "9" c.

(** Both tables hold a weight in [0, 25] for the character. *)
Definition has_weights (c : char) : bool :=
  match check_weights_0 !! c, check_weights_1 !! c with
  | Some w0, Some w1 =>
      ((0 <=? w0) && (w0 <=? 25) && (0 <=? w1) && (w1 <=? 25))%Z
  | _, _ => false
  end.

(** The check character as the specification words it: the weight of the
    character at position [i] comes from the even table when [i] is even and
    from the odd table otherwise; the weights are summed, reduced modulo 26
    and mapped to a letter, 0 to A and 25 to Z. *)
Definition table_weight (i : nat) (c : char) : Z :=
  default 0%Z ((if Nat.even i then check_weights_0 else check_weights_1) !! c).

Definition weighted_sum (stub : str) : Z :=
  foldr Z.add 0%Z (imap table_weight stub).

Definition letter_of (n : Z) : char := chr "A" + Z.to_N n.

(** Decidable readings of the parts of a stub. *)
Definition digits_of_length (n : nat) (s : str) : bool :=
  (length s =? n)%nat && forallb is_digit s.

Definition month_letter_ok (m : Z) : bool :=
  match MONTH_LETTER !! m with
  | Some [c] =>
      (c =? letter_of (m - 1)) && in_range "A" "L" c
      && bool_decide (py "ABCDEFGHIJKL" !! Z.to_nat (m - 1) = Some c)
  | _ => false
  end.

(** Equality of two strings, decided character by character. *)
Fixpoint str_eqb (a b : str) : bool :=
  match a, b with
  | [], [] => true
  | x :: a', y :: b' => (x =? y) && str_eqb a' b'
  | _, _ => false
  end.

(** A digit read as the letter of the same rank: [0] as [A], ..., [9] as
    [J]; other characters are kept. *)
Definition digit_as_letter (c : char) : char :=
  if is_digit c then c + 17 else c.

(** Two letters, or two digits. *)
Definition same_kind (c c' : char) : bool :=
  (cls_A_Z c && cls_A_Z c') || (is_digit c && is_digit c').

(** In both tables the weight of [c] differs from the weight of every other
    character of its kind. *)
Definition weights_apart (c : char) : bool :=
  forallb
    (fun c' =>
       implb (same_kind c c' && negb (c =? c'))
         (negb (table_weight 0 c =? table_weight 0 c')%Z
          && negb (table_weight 1 c =? table_weight 1 c')%Z))
    (N.of_nat <$> seq 0 91).

(** The worked example. *)
Definition Mueller : str := py "M" ++ [252] ++ py "ller".
Definition Hans : str := py "Hans".
Definition birthday_1987_03_05 : date := {| year := 1987; month := 3; day := 5 |}.
Definition rng0 : rng := {| tape := fun _ => 0; cursor := 0 |}.

Section Provider.

(** *** Collaborators outside the repository

    [unicodedata.normalize("NFKD", _)], [unicodedata.combining] and the
    upper-case mapping of the non-ASCII code points belong to Python's
    Unicode database; they are parameters of the development. *)
Variable unicodedata_normalize_NFKD : str -> str.
Variable unicodedata_combining : char -> N.
Variable unicode_upper : char -> str.

(** [self.generator.first_name()], [self.generator.last_name()] and
    [self.generator.date_of_birth()]: the random collaborators. *)
Variable generator_first_name : Gen (list N).
Variable generator_last_name : Gen (list N).
Variable generator_date_of_birth : Gen date.

(** [s.upper()]: characters are mapped one by one; ASCII letters by
    [ascii_upper], the other code points by the Unicode full mapping. *)
Definition upper_char (c : char) : str :=
  if c <? 128 then [ascii_upper c] else unicode_upper c.
Definition upper (s : str) : str := s ≫= upper_char.

(** *** [vat_id] *)

(** Modelled from the spec: [random_element] and [bothify] of the base
    provider are not part of the sources.  The spec has a random-digit
    pattern filler that yields the prefix followed by independently chosen
    decimal digits: [random_element] picks one of the given formats,
    [bothify] puts a drawn decimal digit in the place of every [#] and keeps
    the other characters. *)
Definition random_element {A} (elements : list A) : Gen A :=
  n ← draw;
  match elements !! (N.to_nat n mod length elements)%nat with
  | Some e => mret e
  | None => lift (Raise IndexError)
  end.

Definition random_digit : Gen N :=
  n ← draw;
  mret (chr "0" + n mod 10).

Fixpoint bothify (text : str) : Gen (list N) :=
  match text with
  | [] => mret []
  | c :: rest =>
      d ← (if c =? chr "#" then random_digit else mret c);
      filled ← bothify rest;
      mret (d :: filled)
  end.

Definition vat_id : Gen (list N) :=
  format ← random_element vat_id_formats;
  bothify format.

(** *** [_normalize_name] *)
Definition _normalize_name (name : str) : str :=
  let nfkd_form := unicodedata_normalize_NFKD name in
  List.filter (fun char => unicodedata_combining char =? 0) nfkd_form.

(** *** [_etin_name_quartet] *)

(** The loop [for vowel in reversed(vowels)] with its [break]. *)
Fixpoint append_vowels (result : str) (reversed_vowels : str) : str :=
  match reversed_vowels with
  | [] => result
  | vowel :: rest =>
      let result := result ++ [vowel] in
      if (length result =? 4)%nat then result else append_vowels result rest
  end.

(** In the loop over the prefixes [_name.replace(prefix, "")] is an
    expression statement: its value is dropped and [_name] stays bound to
    the same string. *)
Definition _etin_name_quartet (name : str) : str :=
  let _name := _normalize_name name in
  let _name := replace (py "Sch") (py "Y") _name in
  let _name :=
    foldl (fun _name prefix =>
             let _ := replace prefix (py "") _name in _name)
          _name [py "de "; py "von "; py "zu "] in
  let _name := upper _name in
  let _name := re_sub_delete cls_not_A_Z _name in
  let consonants := re_sub_delete cls_AEIOU _name in
  let vowels := re_sub_delete cls_not_AEIOU _name in
  let result := take 4 consonants in
  let result :=
    if (length result <? 4)%nat
    then append_vowels result (reverse vowels)
    else result in
  let result := ljust 4 (chr "X") result in
  result.

(** *** [etin] *)
Definition etin (first_name last_name : option (list N))
    (birthday : option date) : Gen (list N) :=
  first_name ←
    match first_name with
    | None => generator_first_name
    | Some first_name => mret first_name
    end;
  last_name ←
    match last_name with
    | None => generator_last_name
    | Some last_name => mret last_name
    end;
  birthday ←
    match birthday with
    | None => generator_date_of_birth
    | Some birthday => mret birthday
    end;
  month_letter ← lift (getitem_int MONTH_LETTER (month birthday));
  let _etin :=
    upper (_etin_name_quartet last_name
           ++ _etin_name_quartet first_name
           ++ last_chars 2 (str_of_int (year birthday))
           ++ month_letter
           ++ rjust 2 (chr "0") (str_of_int (day birthday))) in
  check ← lift (_etin_check_character _etin);
  mret (_etin ++ check).

(** *** The quartet's input as the specification names it *)

(** The filtered upper-cased name: the letters [A-Z] that are left of the
    normalized name after the digraph substitution and the upper-casing. *)
Definition name_letters (name : str) : str :=
  List.filter cls_A_Z
    (upper (replace (py "Sch") (py "Y") (_normalize_name name))).

(** The pipeline of [_etin_name_quartet] without its loop over the
    prefixes. *)
Definition quartet_without_prefix_step (name : str) : str :=
  let _name := _normalize_name name in
  let _name := replace (py "Sch") (py "Y") _name in
  let _name := upper _name in
  let _name := re_sub_delete cls_not_A_Z _name in
  let consonants := re_sub_delete cls_AEIOU _name in
  let vowels := re_sub_delete cls_not_AEIOU _name in
  let result := take 4 consonants in
  let result :=
    if (length result <? 4)%nat
    then append_vowels result (reverse vowels)
    else result in
  ljust 4 (chr "X") result.

(** *** [etin] once its arguments are known

    What [etin] computes from a first name, a last name and a birth date,
    after the defaults were filled in; and the stub as the specification
    assembles it. *)
Definition etin_of (first_name last_name : str) (birthday : date)
  : result (list N) :=
  month_letter ← getitem_int MONTH_LETTER (month birthday);
  let _etin :=
    upper (_etin_name_quartet last_name
           ++ _etin_name_quartet first_name
           ++ last_chars 2 (str_of_int (year birthday))
           ++ month_letter
           ++ rjust 2 (chr "0") (str_of_int (day birthday))) in
  check ← _etin_check_character _etin;
  mret (_etin ++ check).

Definition or_default {A} (argument : option A) (generator : Gen A) : Gen A :=
  match argument with
  | None => generator
  | Some a => mret a
  end.

Definition etin_stub (first_name last_name : str) (birthday : date) : str :=
  _etin_name_quartet last_name
  ++ _etin_name_quartet first_name
  ++ last_chars 2 (str_of_int (year birthday))
  ++ [letter_of (month birthday - 1)]
  ++ rjust 2 (chr "0") (str_of_int (day birthday)).

(** ** Properties of the quartet *)

Lemma append_vowels_take (reversed_vowels result : str) :
  (length result < 4)%nat ->
  append_vowels result reversed_vowels
  = result ++ take (4 - length result) reversed_vowels.
Proof.
  revert result.
  induction reversed_vowels as [|vowel rest IH]; intros result Hlt; simpl.
  - by rewrite take_nil, app_nil_r.
  - rewrite length_app; simpl.
    destruct (Nat.eqb_spec (length result + 1) 4) as [Heq|Hne].
    + replace (4 - length result)%nat with 1%nat by lia.
      simpl. by rewrite take_0.
    + rewrite IH by (rewrite length_app; simpl; lia).
      rewrite length_app; simpl.
      replace (4 - length result)%nat
        with (S (4 - (length result + 1)))%nat by lia.
      by rewrite <- app_assoc.
Qed.

Lemma prefix_loop_keeps_name (prefixes : list (list N)) (_name : str) :
  foldl (fun _name prefix => let _ := replace prefix (py "") _name in _name)
        _name prefixes = _name.
Proof. induction prefixes as [|prefix rest IH]; simpl; auto. Qed.

Lemma re_sub_delete_not_A_Z (s : str) :
  re_sub_delete cls_not_A_Z s = List.filter cls_A_Z s.
Proof.
  apply List.filter_ext. intros c. unfold cls_not_A_Z.
  by rewrite negb_involutive.
Qed.

Lemma re_sub_delete_not_AEIOU (s : str) :
  re_sub_delete cls_not_AEIOU s = vowels_of s.
Proof.
  apply List.filter_ext. intros c. unfold cls_not_AEIOU.
  by rewrite negb_involutive.
Qed.

(** The loop with its [break] and the padding compute the closed form. *)
Lemma quartet_loop_spec (letters : str) :
  ljust 4 (chr "X")
    (if (length (take 4 (re_sub_delete cls_AEIOU letters)) <? 4)%nat
     then append_vowels (take 4 (re_sub_delete cls_AEIOU letters))
            (reverse (re_sub_delete cls_not_AEIOU letters))
     else take 4 (re_sub_delete cls_AEIOU letters))
  = quartet_spec letters.
Proof.
  rewrite re_sub_delete_not_AEIOU.
  unfold quartet_spec, ljust.
  change (re_sub_delete cls_AEIOU letters) with (consonants_of letters).
  set (cs := take 4 (consonants_of letters)).
  assert (Hcs : (length cs <= 4)%nat)
    by (unfold cs; rewrite length_take; lia).
  destruct (Nat.ltb_spec (length cs) 4) as [Hlt|Hge].
  - rewrite append_vowels_take by done.
    rewrite <- app_assoc, length_app. do 2 f_equal. f_equal. lia.
  - replace (4 - length cs)%nat with 0%nat by lia.
    by rewrite take_0.
Qed.

Lemma _etin_name_quartet_spec (name : str) :
  _etin_name_quartet name = quartet_spec (name_letters name).
Proof.
  unfold _etin_name_quartet. cbv zeta.
  rewrite prefix_loop_keeps_name, quartet_loop_spec.
  unfold name_letters. by rewrite re_sub_delete_not_A_Z.
Qed.

Lemma quartet_spec_length (letters : str) :
  length (quartet_spec letters) = 4%nat.
Proof.
  unfold quartet_spec. cbv zeta.
  rewrite !length_app, length_replicate, !length_take. lia.
Qed.

Lemma Forall_filter_sub (P : N -> Prop) (f : N -> bool) (l : str) :
  Forall P l -> Forall P (List.filter f l).
Proof.
  rewrite !Forall_forall. intros H c Hc. apply H.
  rewrite list_elem_of_In in *. by apply List.filter_In in Hc as [? _].
Qed.

Lemma Forall_filter_keep (f : N -> bool) (l : str) :
  Forall (fun c => f c = true) (List.filter f l).
Proof.
  rewrite Forall_forall. intros c Hc.
  rewrite list_elem_of_In in Hc. by apply List.filter_In in Hc as [_ ?].
Qed.

Lemma quartet_spec_A_Z (letters : str) :
  Forall (fun c => cls_A_Z c = true) letters ->
  Forall (fun c => cls_A_Z c = true) (quartet_spec letters).
Proof.
  intros H. unfold quartet_spec. cbv zeta.
  rewrite !Forall_app. split_and!.
  - by apply Forall_take, Forall_filter_sub.
  - by apply Forall_take, Forall_reverse, Forall_filter_sub.
  - by apply Forall_replicate.
Qed.

(** C1: for every input string the quartet has exactly four characters, all
    of them in A-Z; it is the first four consonants of the filtered
    upper-cased name in their order, followed, when there are fewer than
    four, by vowels taken from the vowel sequence in reverse until the
    length is four, followed by [X] up to length four; a name without
    letters yields [XXXX]. *)
Theorem quartet_four_uppercase_letters (name : str) :
  length (_etin_name_quartet name) = 4%nat
  /\ Forall (fun c => cls_A_Z c = true) (_etin_name_quartet name)
  /\ _etin_name_quartet name = quartet_spec (name_letters name)
  /\ (name_letters name = [] -> _etin_name_quartet name = py "XXXX").
Proof.
  rewrite _etin_name_quartet_spec. split_and!.
  - apply quartet_spec_length.
  - apply quartet_spec_A_Z, Forall_filter_keep.
  - reflexivity.
  - intros ->. reflexivity.
Qed.

(** C6: the loop that strips the prefixes [de ], [von ] and [zu ] has no
    effect: the quartet is the one of the pipeline without that loop, and a
    normalized name that begins with one of the prefixes is encoded from
    letters that still begin with the letters of the prefix. *)
Theorem prefix_stripping_has_no_effect (name : str) :
  _etin_name_quartet name = quartet_without_prefix_step name
  /\ forall prefix rest : str,
       prefix ∈ [py "de "; py "von "; py "zu "] ->
       _normalize_name name = prefix ++ rest ->
       exists letters : str,
         name_letters name = List.filter cls_A_Z (upper prefix) ++ letters
         /\ List.filter cls_A_Z (upper prefix) <> []
         /\ _etin_name_quartet name
            = quartet_spec (List.filter cls_A_Z (upper prefix) ++ letters).
Proof.
  split.
  - unfold _etin_name_quartet, quartet_without_prefix_step. cbv zeta.
    by rewrite prefix_loop_keeps_name.
  - intros prefix rest Hin Hnorm.
    exists (List.filter cls_A_Z
              (upper (replace (py "Sch") (py "Y") rest))).
    rewrite _etin_name_quartet_spec. unfold name_letters. rewrite Hnorm.
    assert (Hrep : replace (py "Sch") (py "Y") (prefix ++ rest)
                   = prefix ++ replace (py "Sch") (py "Y") rest).
    { rewrite !elem_of_cons in Hin.
      destruct Hin as [->|[->|[->|Hin]]]; [reflexivity..|].
      by apply elem_of_nil in Hin. }
    rewrite Hrep. unfold upper. rewrite bind_app, List.filter_app.
    split_and!; [done| |done].
    rewrite !elem_of_cons in Hin.
    destruct Hin as [->|[->|[->|Hin]]]; [by vm_compute..|].
    by apply elem_of_nil in Hin.
Qed.

(** ** Properties of the check character *)

(** Checking a decidable property of the code points below a bound. *)
Lemma N_forall_below (f : N -> bool) (n : nat) :
  forallb f (N.of_nat <$> seq 0 n) = true ->
  forall c, c < N.of_nat n -> f c = true.
Proof.
  intros Hall c Hc. rewrite forallb_forall in Hall. apply Hall.
  apply in_map_iff. exists (N.to_nat c). split; [lia|].
  apply in_seq. lia.
Qed.

(** Checking a decidable property of the integers of an interval. *)
Lemma Z_forall_between (f : Z -> bool) (lo n : Z) :
  forallb f ((fun i => lo + Z.of_nat i)%Z <$> seq 0 (Z.to_nat n)) = true ->
  forall z, (lo <= z < lo + n)%Z -> f z = true.
Proof.
  intros Hall z Hz. rewrite forallb_forall in Hall. apply Hall.
  apply in_map_iff. exists (Z.to_nat (z - lo)). split; [lia|].
  apply in_seq. lia.
Qed.

Lemma in_range_spec (lo hi : ascii) (c : char) :
  in_range lo hi c = true <-> chr lo <= c <= chr hi.
Proof. unfold in_range. by rewrite andb_true_iff, !N.leb_le. Qed.

Lemma is_stub_char_bound (c : char) : is_stub_char c = true -> c < 91.
Proof.
  unfold is_stub_char. rewrite orb_true_iff, !in_range_spec.
  vm_compute chr. lia.
Qed.

Lemma stub_char_has_weights (c : char) :
  is_stub_char c = true -> has_weights c = true.
Proof.
  intros Hc.
  pose proof (N_forall_below
                (fun c => implb (is_stub_char c) (has_weights c)) 91) as H.
  specialize (H ltac:(vm_compute; reflexivity) c (is_stub_char_bound c Hc)).
  cbv beta in H. by rewrite Hc in H.
Qed.

Lemma table_lookup (i : nat) (c : char) :
  is_stub_char c = true ->
  (if Nat.even i then check_weights_0 else check_weights_1) !! c
  = Some (table_weight i c)
  /\ (0 <= table_weight i c <= 25)%Z.
Proof.
  intros Hc. apply stub_char_has_weights in Hc.
  unfold has_weights in Hc. unfold table_weight.
  destruct (check_weights_0 !! c) as [w0|] eqn:H0; [|discriminate Hc].
  destruct (check_weights_1 !! c) as [w1|] eqn:H1; [|discriminate Hc].
  rewrite !andb_true_iff, !Z.leb_le in Hc.
  destruct (Nat.even i); cbv iota; [rewrite H0|rewrite H1];
    (split; [reflexivity|simpl; lia]).
Qed.

Lemma parity_index (position : nat) :
  (position mod 2 =? 0)%nat = Nat.even position.
Proof.
  destruct (Nat.even position) eqn:He.
  - apply Nat.even_spec in He as [k ->]. apply Nat.eqb_eq.
    rewrite Nat.mul_comm. apply Nat.Div0.mod_mul.
  - apply Nat.eqb_neq. intros Hm.
    apply Nat.Div0.mod_divides in Hm as [k ->].
    rewrite Nat.even_mul in He. done.
Qed.

Lemma _etin_check_weight_spec (position : nat) (value : char) :
  is_stub_char value = true ->
  _etin_check_weight position value
  = Return (table_weight position value).
Proof.
  intros Hc. unfold _etin_check_weight. cbv zeta.
  rewrite parity_index.
  destruct (table_lookup position value Hc) as [Hl _].
  unfold getitem_str.
  destruct (Nat.even position); by rewrite Hl.
Qed.

Lemma sum_check_weights_spec (etin_stub : str) :
  Forall (fun c => is_stub_char c = true) etin_stub ->
  forall (index : nat) (_sum : Z),
    sum_check_weights index etin_stub _sum
    = Return (_sum + foldr Z.add 0
                       (imap (fun i => table_weight (index + i)) etin_stub))%Z.
Proof.
  induction 1 as [|c rest Hc _ IH]; intros index _sum; simpl.
  - f_equal. lia.
  - rewrite _etin_check_weight_spec by done. simpl.
    rewrite IH, Nat.add_0_r. f_equal.
    rewrite <- Z.add_assoc. do 3 f_equal.
    apply imap_ext. intros i x _. simpl. f_equal. lia.
Qed.

Lemma index_ascii_uppercase (n : Z) :
  (0 <= n < 26)%Z ->
  index_str ascii_uppercase n = Return [letter_of n]
  /\ cls_A_Z (letter_of n) = true.
Proof.
  intros Hn.
  pose proof (Z_forall_between
    (fun n => match index_str ascii_uppercase n with
              | Return [c] => (c =? letter_of n) && cls_A_Z c
              | _ => false
              end) 0%Z 26%Z ltac:(vm_compute; reflexivity) n ltac:(lia)) as H.
  simpl in H.
  destruct (index_str ascii_uppercase n) as [[|c [|? ?]]|]; try done.
  apply andb_true_iff in H as [->%N.eqb_eq H]. done.
Qed.

(** The check character of any string of letters and digits. *)
Lemma _etin_check_character_spec (etin_stub : str) :
  Forall (fun c => is_stub_char c = true) etin_stub ->
  _etin_check_character etin_stub
  = Return [letter_of (weighted_sum etin_stub mod 26)].
Proof.
  intros Hs. unfold _etin_check_character.
  rewrite sum_check_weights_spec by done. simpl.
  apply index_ascii_uppercase. apply Z.mod_pos_bound. lia.
Qed.

(** C2: for every 13-character stub over A-Z and 0-9 the check character is
    the letter for the sum, modulo 26, of the weights of its characters, each
    taken from the even table at an even position and from the odd table at
    an odd one, with 0 mapped to A and 25 to Z; every lookup succeeds and the
    function returns. *)
Theorem check_character_is_weighted_sum (stub : str) :
  length stub = 13%nat ->
  Forall (fun c => is_stub_char c = true) stub ->
  _etin_check_character stub
  = Return [letter_of (weighted_sum stub mod 26)]
  /\ (0 <= weighted_sum stub mod 26 < 26)%Z
  /\ cls_A_Z (letter_of (weighted_sum stub mod 26)) = true
  /\ forall (i : nat) (c : char),
       stub !! i = Some c ->
       (if Nat.even i then check_weights_0 else check_weights_1) !! c
       = Some (table_weight i c).
Proof.
  intros _ Hs. split; [|split; [|split]].
  - by apply _etin_check_character_spec.
  - apply Z.mod_pos_bound. lia.
  - apply index_ascii_uppercase, Z.mod_pos_bound. lia.
  - intros i c Hic. apply table_lookup.
    rewrite Forall_forall in Hs. apply Hs.
    apply list_elem_of_lookup. eauto.
Qed.

(** ** Properties of [etin] *)

Lemma etin_supplied (first_name last_name : str) (birthday : date) (g : rng) :
  etin (Some first_name) (Some last_name) (Some birthday) g
  = (etin_of first_name last_name birthday, g).
Proof.
  unfold etin, etin_of, mbind, Gen_bind, result_bind, mret, Gen_ret,
    result_ret, lift.
  destruct (getitem_int MONTH_LETTER (month birthday)) as [ml|e]; [|done].
  cbv zeta.
  by destruct (_etin_check_character _) as [check|e].
Qed.

(** Omitted arguments are drawn from the collaborators, in the order first
    name, last name, birth date; nothing else reads the generator. *)
Lemma etin_defaults (first_name last_name : option (list N))
    (birthday : option date) (g : rng) :
  etin first_name last_name birthday g
  = (f ← or_default first_name generator_first_name;
     l ← or_default last_name generator_last_name;
     b ← or_default birthday generator_date_of_birth;
     etin (Some f) (Some l) (Some b)) g.
Proof.
  unfold etin at 1, or_default, mbind, Gen_bind.
  destruct (match first_name with
            | Some f => mret f | None => generator_first_name end g)
    as [[f|e] g1]; [|done].
  destruct (match last_name with
            | Some l => mret l | None => generator_last_name end g1)
    as [[l|e] g2]; [|done].
  destruct (match birthday with
            | Some b => mret b | None => generator_date_of_birth end g2)
    as [[b|e] g3]; [|done].
  rewrite etin_supplied.
  unfold etin_of, mbind, result_bind, lift, mret, Gen_ret, result_ret.
  destruct (getitem_int MONTH_LETTER (month b)) as [ml|e]; [|done].
  cbv zeta.
  by destruct (_etin_check_character _) as [check|e].
Qed.

(** Whatever [etin] returns was computed by [etin_of]. *)
Lemma etin_returns (first_name last_name : option (list N))
    (birthday : option date) (g g' : rng) (e : str) :
  etin first_name last_name birthday g = (Return e, g') ->
  exists f l b, etin_of f l b = Return e.
Proof.
  rewrite etin_defaults. unfold mbind, Gen_bind.
  destruct (or_default first_name generator_first_name g)
    as [[f|?] g1]; [|done].
  destruct (or_default last_name generator_last_name g1)
    as [[l|?] g2]; [|done].
  destruct (or_default birthday generator_date_of_birth g2)
    as [[b|?] g3]; [|done].
  rewrite etin_supplied. intros [= H _]. eauto.
Qed.

Lemma index_str_length (s : str) (i : Z) (c : str) :
  index_str s i = Return c -> length c = 1%nat.
Proof.
  unfold index_str. destruct (s !! Z.to_nat i); [|done].
  by intros [= <-].
Qed.

Lemma _etin_check_character_length (etin_stub : str) (c : str) :
  _etin_check_character etin_stub = Return c -> length c = 1%nat.
Proof.
  unfold _etin_check_character, mbind, result_bind.
  destruct (sum_check_weights 0 etin_stub 0) as [w|]; [|done].
  apply index_str_length.
Qed.

(** An eTIN is a stub followed by the check character of that stub. *)
Lemma etin_of_inv (first_name last_name : str) (birthday : date) (e : str) :
  etin_of first_name last_name birthday = Return e ->
  exists stub check : str,
    e = stub ++ check /\ length check = 1%nat
    /\ _etin_check_character stub = Return check.
Proof.
  unfold etin_of, mbind, result_bind.
  destruct (getitem_int MONTH_LETTER (month birthday)) as [ml|]; [|done].
  cbv zeta.
  destruct (_etin_check_character _) as [check|] eqn:Hc; [|done].
  intros [= <-]. eexists _, check. split_and!; [done| |done].
  by eapply _etin_check_character_length.
Qed.

Lemma strip_and_last (stub check : str) :
  length check = 1%nat ->
  take (length (stub ++ check) - 1) (stub ++ check) = stub
  /\ last_chars 1 (stub ++ check) = check.
Proof.
  intros Hc. unfold last_chars. rewrite length_app, Hc.
  replace (length stub + 1 - 1)%nat with (length stub) by lia.
  by rewrite take_app_length, drop_app_length.
Qed.

(** *** The parts of the stub for a valid date *)

Lemma valid_date_fields (b : date) :
  valid_date b = true ->
  (1 <= year b <= 9999)%Z /\ (1 <= month b <= 12)%Z /\ (1 <= day b <= 31)%Z.
Proof.
  unfold valid_date, days_in_month.
  rewrite !andb_true_iff, !Z.leb_le.
  destruct (month b =? 2)%Z; [destruct (is_leap (year b))|];
    [| |destruct (_ || _)]; lia.
Qed.

Lemma digits_of_length_spec (n : nat) (s : str) :
  digits_of_length n s = true <->
  length s = n /\ Forall (fun c => is_digit c = true) s.
Proof.
  unfold digits_of_length.
  rewrite andb_true_iff, Nat.eqb_eq, forallb_forall, Forall_forall.
  by setoid_rewrite list_elem_of_In.
Qed.

Lemma year_suffix_two_digits (y : Z) :
  (10 <= y <= 9999)%Z ->
  digits_of_length 2 (last_chars 2 (str_of_int y)) = true.
Proof.
  intros Hy.
  apply (Z_forall_between
           (fun y => digits_of_length 2 (last_chars 2 (str_of_int y)))
           10%Z 9990%Z); [vm_compute; reflexivity|lia].
Qed.

Lemma year_suffix_one_digit (y : Z) :
  (1 <= y <= 9)%Z ->
  digits_of_length 1 (last_chars 2 (str_of_int y)) = true.
Proof.
  intros Hy.
  apply (Z_forall_between
           (fun y => digits_of_length 1 (last_chars 2 (str_of_int y)))
           1%Z 9%Z); [vm_compute; reflexivity|lia].
Qed.

Lemma day_two_digits (d : Z) :
  (1 <= d <= 31)%Z ->
  digits_of_length 2 (rjust 2 (chr "0") (str_of_int d)) = true.
Proof.
  intros Hd.
  apply (Z_forall_between
           (fun d => digits_of_length 2 (rjust 2 (chr "0") (str_of_int d)))
           1%Z 31%Z); [vm_compute; reflexivity|lia].
Qed.

Lemma month_letter_in_table (m : Z) :
  (1 <= m <= 12)%Z -> month_letter_ok m = true.
Proof.
  intros Hm.
  apply (Z_forall_between month_letter_ok 1%Z 12%Z);
    [vm_compute; reflexivity|lia].
Qed.

Lemma month_outside_table (m : Z) :
  ~ (1 <= m <= 12)%Z -> MONTH_LETTER !! m = None.
Proof.
  intros Hm. apply not_elem_of_list_to_map_1. simpl.
  rewrite !elem_of_cons, elem_of_nil. lia.
Qed.

Lemma MONTH_LETTER_spec (m : Z) :
  (1 <= m <= 12)%Z ->
  MONTH_LETTER !! m = Some [letter_of (m - 1)]
  /\ chr "A" <= letter_of (m - 1) <= chr "L"
  /\ py "ABCDEFGHIJKL" !! Z.to_nat (m - 1) = Some (letter_of (m - 1)).
Proof.
  intros Hm. apply month_letter_in_table in Hm.
  unfold month_letter_ok in Hm.
  destruct (MONTH_LETTER !! m) as [[|c [|? ?]]|]; try discriminate Hm.
  rewrite !andb_true_iff, N.eqb_eq, in_range_spec, bool_decide_eq_true in Hm.
  destruct Hm as [[-> ?] ?]. done.
Qed.

(** *** Upper-casing a stub *)

Lemma upper_char_stub (c : char) :
  is_stub_char c = true -> upper_char c = [c].
Proof.
  intros Hc. unfold upper_char, ascii_upper.
  assert (Hlt : c < 91) by by apply is_stub_char_bound.
  destruct (N.ltb_spec c 128); [|lia].
  destruct (in_range "a" "z" c) eqn:Hr; [|done].
  apply in_range_spec in Hr. vm_compute chr in Hr. lia.
Qed.

Lemma upper_stub (s : str) :
  Forall (fun c => is_stub_char c = true) s -> upper s = s.
Proof.
  unfold upper. induction 1 as [|c rest Hc _ IH]; [done|].
  rewrite bind_cons, IH, upper_char_stub by done. done.
Qed.

Lemma A_Z_is_stub_char (s : str) :
  Forall (fun c => cls_A_Z c = true) s ->
  Forall (fun c => is_stub_char c = true) s.
Proof.
  intros H. eapply Forall_impl; [exact H|].
  intros c Hc. unfold is_stub_char.
  unfold cls_A_Z in Hc. by rewrite Hc.
Qed.

Lemma digit_is_stub_char (s : str) :
  Forall (fun c => is_digit c = true) s ->
  Forall (fun c => is_stub_char c = true) s.
Proof.
  intros H. eapply Forall_impl; [exact H|].
  intros c Hc. unfold is_stub_char.
  unfold is_digit in Hc. rewrite Hc. apply orb_true_r.
Qed.

Lemma quartet_A_Z (name : str) :
  length (_etin_name_quartet name) = 4%nat
  /\ Forall (fun c => cls_A_Z c = true) (_etin_name_quartet name).
Proof.
  rewrite _etin_name_quartet_spec. split.
  - apply quartet_spec_length.
  - apply quartet_spec_A_Z, Forall_filter_keep.
Qed.

(** The year suffix of a valid date: one or two digits. *)
Lemma year_suffix_digits (y : Z) :
  (1 <= y <= 9999)%Z ->
  Forall (fun c => is_digit c = true) (last_chars 2 (str_of_int y))
  /\ length (last_chars 2 (str_of_int y))
     = (if (y <? 10)%Z then 1 else 2)%nat.
Proof.
  intros Hy. destruct (Z.ltb_spec y 10).
  - destruct (proj1 (digits_of_length_spec _ _)
                (year_suffix_one_digit y ltac:(lia))); done.
  - destruct (proj1 (digits_of_length_spec _ _)
                (year_suffix_two_digits y ltac:(lia))); done.
Qed.

Lemma etin_stub_chars (first_name last_name : str) (birthday : date) :
  valid_date birthday = true ->
  Forall (fun c => is_stub_char c = true)
         (etin_stub first_name last_name birthday)
  /\ length (etin_stub first_name last_name birthday)
     = (if (year birthday <? 10)%Z then 12 else 13)%nat.
Proof.
  intros Hv. apply valid_date_fields in Hv as (Hy & Hm & Hd).
  destruct (quartet_A_Z last_name) as [Hl1 Hl2].
  destruct (quartet_A_Z first_name) as [Hf1 Hf2].
  destruct (year_suffix_digits _ Hy) as [Hy1 Hy2].
  destruct (proj1 (digits_of_length_spec _ _) (day_two_digits _ Hd))
    as [Hd1 Hd2].
  destruct (MONTH_LETTER_spec _ Hm) as (_ & Hml & _).
  unfold etin_stub. split.
  - rewrite !Forall_app. split_and!.
    + by apply A_Z_is_stub_char.
    + by apply A_Z_is_stub_char.
    + by apply digit_is_stub_char.
    + apply Forall_singleton. unfold is_stub_char.
      apply orb_true_iff. left. apply in_range_spec.
      vm_compute chr in *. lia.
    + by apply digit_is_stub_char.
  - rewrite !length_app, Hl1, Hf1, Hy2, Hd1. simpl.
    destruct (year birthday <? 10)%Z; lia.
Qed.

(** For a valid date [etin_of] returns the stub and its check letter. *)
Lemma etin_of_valid (first_name last_name : str) (birthday : date) :
  valid_date birthday = true ->
  etin_of first_name last_name birthday
  = Return (etin_stub first_name last_name birthday
            ++ [letter_of
                  (weighted_sum (etin_stub first_name last_name birthday)
                   mod 26)]).
Proof.
  intros Hv. destruct (etin_stub_chars first_name last_name _ Hv) as [Hs _].
  apply valid_date_fields in Hv as (_ & Hm & _).
  destruct (MONTH_LETTER_spec _ Hm) as (Hml & _).
  unfold etin_of, getitem_int. rewrite Hml.
  unfold mbind at 1, result_bind at 1. cbv zeta.
  fold (etin_stub first_name last_name birthday).
  rewrite upper_stub, _etin_check_character_spec by done. done.
Qed.

(** C3: for the last name [Müller], the first name [Hans] and the birth
    date 1987-03-05 (with the Unicode data of the letters involved: U+00FC
    decomposes into [u] and the combining diaeresis, ASCII letters are
    unchanged and are not combining) the normalized last name is [Muller],
    the quartets are [MLLR] and [HNSA], the stub is [MLLRHNSA87C05], and
    [etin] returns the stub followed by its check character, [K]. *)
Theorem etin_Mueller_Hans_1987_03_05 (g : rng) :
  unicodedata_normalize_NFKD Mueller = py "Mu" ++ [776] ++ py "ller" ->
  unicodedata_normalize_NFKD Hans = Hans ->
  unicodedata_combining 776 <> 0 ->
  Forall (fun c => unicodedata_combining c = 0) (py "MullerHans") ->
  _normalize_name Mueller = py "Muller"
  /\ _etin_name_quartet Mueller = py "MLLR"
  /\ _etin_name_quartet Hans = py "HNSA"
  /\ _etin_name_quartet Mueller ++ _etin_name_quartet Hans
     ++ last_chars 2 (str_of_int 1987) ++ py "C"
     ++ rjust 2 (chr "0") (str_of_int 5) = py "MLLRHNSA87C05"
  /\ MONTH_LETTER !! 3%Z = Some (py "C")
  /\ length (py "MLLRHNSA87C05") = 13%nat
  /\ _etin_check_character (py "MLLRHNSA87C05") = Return (py "K")
  /\ etin (Some Hans) (Some Mueller) (Some birthday_1987_03_05) g
     = (Return (py "MLLRHNSA87C05" ++ py "K"), g).
Proof.
  intros HM HH H776 Hascii.
  apply N.eqb_neq in H776.
  vm_compute in Hascii.
  repeat match goal with
         | H : Forall _ (_ :: _) |- _ =>
             apply Forall_cons in H; destruct H as [?%N.eqb_eq H]
         end.
  assert (HnM : _normalize_name Mueller = py "Muller").
  { unfold _normalize_name. rewrite HM. cbv -[N.eqb].
    by repeat match goal with H : (_ =? _) = _ |- _ =>
                rewrite H; clear H end. }
  assert (HnH : _normalize_name Hans = py "Hans").
  { unfold _normalize_name. rewrite HH. cbv -[N.eqb].
    by repeat match goal with H : (_ =? _) = _ |- _ =>
                rewrite H; clear H end. }
  assert (HqM : _etin_name_quartet Mueller = py "MLLR").
  { unfold _etin_name_quartet. rewrite HnM. vm_compute. reflexivity. }
  assert (HqH : _etin_name_quartet Hans = py "HNSA").
  { unfold _etin_name_quartet. rewrite HnH. vm_compute. reflexivity. }
  split_and!.
  - exact HnM.
  - exact HqM.
  - exact HqH.
  - rewrite HqM, HqH. vm_compute. reflexivity.
  - vm_compute. reflexivity.
  - reflexivity.
  - vm_compute. reflexivity.
  - rewrite etin_supplied. f_equal.
    unfold etin_of. rewrite HqM, HqH. vm_compute. reflexivity.
Qed.

(** C4: removing the final character of an eTIN that [etin] produced and
    computing the check character of what is left gives back the removed
    character; and [etin] does produce an eTIN for every pair of names and
    every valid birth date. *)
Theorem etin_check_character_round_trip :
  (forall (first_name last_name : option (list N)) (birthday : option date)
          (g g' : rng) (e : str),
      etin first_name last_name birthday g = (Return e, g') ->
      _etin_check_character (take (length e - 1) e)
      = Return (last_chars 1 e))
  /\ (forall (first_name last_name : str) (birthday : date) (g : rng),
        valid_date birthday = true ->
        exists e : str,
          etin (Some first_name) (Some last_name) (Some birthday) g
          = (Return e, g)
          /\ _etin_check_character (take (length e - 1) e)
             = Return (last_chars 1 e)).
Proof.
  assert (Hrt : forall f l b e,
             etin_of f l b = Return e ->
             _etin_check_character (take (length e - 1) e)
             = Return (last_chars 1 e)).
  { intros f l b e (stub & check & -> & Hlen & Hc)%etin_of_inv.
    destruct (strip_and_last stub check Hlen) as [-> ->]. done. }
  split.
  - intros fo lo bo g g' e (f & l & b & He)%etin_returns. eauto.
  - intros f l b g Hv. eexists. rewrite etin_supplied. split.
    + f_equal. by apply etin_of_valid.
    + eapply Hrt. by apply etin_of_valid.
Qed.

(** C7: for a birth date with month [m] in 1..12 the month is encoded as the
    [m]-th letter of A..L: [etin] returns the two quartets, the year suffix,
    that letter, the day and a check letter; for a month outside 1..12 the
    call fails with the [KeyError] of the month table, nothing is
    returned. *)
Theorem etin_month_letter_or_KeyError
    (first_name last_name : str) (birthday : date) (g : rng) :
  (valid_date birthday = true ->
   (1 <= month birthday <= 12)%Z
   /\ MONTH_LETTER !! month birthday = Some [letter_of (month birthday - 1)]
   /\ py "ABCDEFGHIJKL" !! Z.to_nat (month birthday - 1)
      = Some (letter_of (month birthday - 1))
   /\ exists check : char,
        etin (Some first_name) (Some last_name) (Some birthday) g
        = (Return (_etin_name_quartet last_name
                   ++ _etin_name_quartet first_name
                   ++ last_chars 2 (str_of_int (year birthday))
                   ++ [letter_of (month birthday - 1)]
                   ++ rjust 2 (chr "0") (str_of_int (day birthday))
                   ++ [check]), g))
  /\ (~ (1 <= month birthday <= 12)%Z ->
      etin (Some first_name) (Some last_name) (Some birthday) g
      = (Raise (KeyError_int (month birthday)), g)).
Proof.
  split.
  - intros Hv.
    destruct (valid_date_fields _ Hv) as (_ & Hm & _).
    destruct (MONTH_LETTER_spec _ Hm) as (Hml & _ & Hnth).
    split_and!; try done; try lia.
    eexists. rewrite etin_supplied, etin_of_valid by done.
    unfold etin_stub. by rewrite <- !app_assoc.
  - intros Hm. rewrite etin_supplied. f_equal.
    unfold etin_of, getitem_int. by rewrite month_outside_table.
Qed.

(** C10: for a valid birth date whose year has one decimal digit (1 to 9)
    the year suffix is one character and the identifier [etin] returns has
    13 characters; it has 14 characters exactly when the year is at least
    10. *)
Theorem etin_single_digit_year_length_13
    (first_name last_name : str) (birthday : date) (g : rng) :
  valid_date birthday = true ->
  exists e : str,
    etin (Some first_name) (Some last_name) (Some birthday) g
    = (Return e, g)
    /\ ((1 <= year birthday <= 9)%Z ->
        length (last_chars 2 (str_of_int (year birthday))) = 1%nat
        /\ length e = 13%nat)
    /\ ((10 <= year birthday)%Z ->
        length (last_chars 2 (str_of_int (year birthday))) = 2%nat
        /\ length e = 14%nat)
    /\ (length e = 14%nat <-> (10 <= year birthday)%Z).
Proof.
  intros Hv. eexists. rewrite etin_supplied, etin_of_valid by done.
  split; [reflexivity|].
  destruct (etin_stub_chars first_name last_name _ Hv) as [_ Hlen].
  destruct (valid_date_fields _ Hv) as (Hy & _ & _).
  destruct (year_suffix_digits _ Hy) as [_ Hys].
  rewrite length_app, Hlen, Hys. simpl.
  destruct (Z.ltb_spec (year birthday) 10); split_and!; try lia.
Qed.

(** ** More on the quartet *)

Lemma consonants_vowels_length (letters : str) :
  (length (consonants_of letters) + length (vowels_of letters))%nat
  = length letters.
Proof.
  unfold consonants_of, vowels_of.
  induction letters as [|c letters IH]; [done|].
  simpl. destruct (cls_AEIOU c); simpl; lia.
Qed.

(** X7: [X] is used as padding only for a name with fewer than four letters:
    with four letters or more every character of the quartet is a letter of
    the filtered upper-cased name, and with [n < 4] letters the quartet is all
    the consonants, then all the vowels in reverse, then [4 - n] times [X]. *)
Theorem quartet_pads_only_short_names (name : str) :
  ((4 <= length (name_letters name))%nat ->
   Forall (fun c => c ∈ name_letters name) (_etin_name_quartet name))
  /\ ((length (name_letters name) < 4)%nat ->
      _etin_name_quartet name
      = consonants_of (name_letters name)
        ++ reverse (vowels_of (name_letters name))
        ++ replicate (4 - length (name_letters name)) (chr "X")).
Proof.
  rewrite _etin_name_quartet_spec.
  generalize (name_letters name) as letters. intros letters.
  pose proof (consonants_vowels_length letters) as Hlen.
  unfold quartet_spec. cbv zeta. split; intros Hl.
  - assert (Hin : Forall (fun c => c ∈ letters) letters)
      by (by apply Forall_forall).
    rewrite !length_take, length_reverse.
    replace (4 - 4 `min` length (consonants_of letters)
             - (4 - 4 `min` length (consonants_of letters))
               `min` length (vowels_of letters))%nat with 0%nat by lia.
    rewrite !Forall_app. split_and!.
    + by apply Forall_take, Forall_filter_sub.
    + by apply Forall_take, Forall_reverse, Forall_filter_sub.
    + constructor.
  - rewrite (take_ge (consonants_of letters)) by lia.
    rewrite take_ge by (rewrite length_reverse; lia).
    rewrite length_reverse. do 3 f_equal. lia.
Qed.

Lemma quartet_spec_prefix (p letters : str) :
  Forall (fun c => cls_AEIOU c = false) p ->
  (length p <= 4)%nat ->
  take (length p) (quartet_spec (p ++ letters)) = p.
Proof.
  intros Hp Hlen.
  assert (Hc : consonants_of (p ++ letters) = p ++ consonants_of letters).
  { unfold consonants_of. rewrite List.filter_app. f_equal.
    induction Hp as [|c p Hc _ IH]; [done|].
    simpl. rewrite Hc. simpl. f_equal. apply IH. simpl in Hlen. lia. }
  unfold quartet_spec. cbv zeta. rewrite Hc.
  rewrite (take_app_ge p) by lia. rewrite <- app_assoc.
  by rewrite take_app_length.
Qed.

(** X8: the digraph rule is applied before the upper-casing and is case
    sensitive: the quartet of a name whose normalized form begins with [Sch]
    begins with [Y], whereas for [SCH] and for [sch] it begins with the three
    letters [SCH]. *)
Theorem quartet_Sch_rule_is_case_sensitive (name rest : str) :
  (_normalize_name name = py "Sch" ++ rest ->
   take 1 (_etin_name_quartet name) = py "Y")
  /\ (_normalize_name name = py "SCH" ++ rest ->
      take 3 (_etin_name_quartet name) = py "SCH")
  /\ (_normalize_name name = py "sch" ++ rest ->
      take 3 (_etin_name_quartet name) = py "SCH").
Proof.
  rewrite _etin_name_quartet_spec. unfold name_letters.
  split_and!; intros ->.
  - change (replace (py "Sch") (py "Y") (py "Sch" ++ rest))
      with (py "Y" ++ replace (py "Sch") (py "Y") rest).
    unfold upper. rewrite bind_app, List.filter_app.
    apply (quartet_spec_prefix (py "Y")); [|simpl; lia].
    repeat constructor.
  - change (replace (py "Sch") (py "Y") (py "SCH" ++ rest))
      with (py "SCH" ++ replace (py "Sch") (py "Y") rest).
    unfold upper. rewrite bind_app, List.filter_app.
    apply (quartet_spec_prefix (py "SCH")); [|simpl; lia].
    repeat constructor.
  - change (replace (py "Sch") (py "Y") (py "sch" ++ rest))
      with (py "sch" ++ replace (py "Sch") (py "Y") rest).
    unfold upper. rewrite bind_app, List.filter_app.
    apply (quartet_spec_prefix (py "SCH")); [|simpl; lia].
    repeat constructor.
Qed.

(** ** More on [etin] *)

(** X9: for a valid birth date from the year 10 on, [etin] returns 14
    characters of the form [A-Z]{8}[0-9]{2}[A-Z][0-9]{2}[A-Z]: eight letters
    (the quartet of the last name, then the one of the first name), two
    digits, a letter, two digits and a letter. *)
Theorem etin_pattern_from_year_10
    (first_name last_name : str) (birthday : date) (g : rng) :
  valid_date birthday = true ->
  (10 <= year birthday)%Z ->
  exists (names year_digits day_digits : str) (month_letter check : char),
    etin (Some first_name) (Some last_name) (Some birthday) g
    = (Return (names ++ year_digits ++ [month_letter] ++ day_digits
               ++ [check]), g)
    /\ names = _etin_name_quartet last_name ++ _etin_name_quartet first_name
    /\ length names = 8%nat
    /\ Forall (fun c => cls_A_Z c = true) names
    /\ length year_digits = 2%nat
    /\ Forall (fun c => is_digit c = true) year_digits
    /\ cls_A_Z month_letter = true
    /\ length day_digits = 2%nat
    /\ Forall (fun c => is_digit c = true) day_digits
    /\ cls_A_Z check = true
    /\ length (names ++ year_digits ++ [month_letter] ++ day_digits
               ++ [check]) = 14%nat.
Proof.
  intros Hv Hy10.
  destruct (valid_date_fields _ Hv) as (Hy & Hm & Hd).
  destruct (quartet_A_Z last_name) as [Hl1 Hl2].
  destruct (quartet_A_Z first_name) as [Hf1 Hf2].
  destruct (year_suffix_digits _ Hy) as [Hy1 Hy2].
  destruct (Z.ltb_spec (year birthday) 10) as [?|_]; [lia|].
  destruct (proj1 (digits_of_length_spec _ _) (day_two_digits _ Hd))
    as [Hd1 Hd2].
  destruct (MONTH_LETTER_spec _ Hm) as (_ & Hml & _).
  destruct (etin_stub_chars first_name last_name _ Hv) as [Hs _].
  exists (_etin_name_quartet last_name ++ _etin_name_quartet first_name),
    (last_chars 2 (str_of_int (year birthday))),
    (rjust 2 (chr "0") (str_of_int (day birthday))),
    (letter_of (month birthday - 1)),
    (letter_of
       (weighted_sum (etin_stub first_name last_name birthday) mod 26)).
  rewrite etin_supplied, etin_of_valid by done.
  split.
  { unfold etin_stub. by rewrite <- !app_assoc. }
  split; [reflexivity|].
  split; [rewrite length_app; lia|].
  split; [by apply Forall_app|].
  split; [done|]. split; [done|].
  split; [apply in_range_spec; vm_compute chr in *; lia|].
  split; [done|]. split; [done|].
  split.
  { apply index_ascii_uppercase, Z.mod_pos_bound. lia. }
  rewrite !length_app, Hl1, Hf1, Hy2, Hd1. reflexivity.
Qed.

Lemma str_eqb_eq (a b : str) : str_eqb a b = true -> a = b.
Proof.
  revert b. induction a as [|x a IH]; intros [|y b]; simpl; try done.
  intros [->%N.eqb_eq H]%andb_true_iff. f_equal. by apply IH.
Qed.

Lemma year_suffix_mod_100 (y : Z) :
  (10 <= y <= 9999)%Z ->
  last_chars 2 (str_of_int y) = rjust 2 (chr "0") (str_of_int (y mod 100)).
Proof.
  intros Hy. apply str_eqb_eq.
  apply (Z_forall_between
           (fun y => str_eqb (last_chars 2 (str_of_int y))
                       (rjust 2 (chr "0") (str_of_int (y mod 100))))
           10%Z 9990%Z); [vm_compute; reflexivity|lia].
Qed.

(** X10: from the year 10 on the year enters the eTIN through its last two
    decimal digits only: the suffix is the year modulo 100 written with two
    digits, and two valid birth dates with the same month and day whose years
    agree modulo 100 give the same eTIN. *)
Theorem etin_drops_the_century
    (first_name last_name : str) (b1 b2 : date) (g : rng) :
  valid_date b1 = true ->
  valid_date b2 = true ->
  (10 <= year b1)%Z ->
  (10 <= year b2)%Z ->
  month b1 = month b2 ->
  day b1 = day b2 ->
  (year b1 mod 100 = year b2 mod 100)%Z ->
  last_chars 2 (str_of_int (year b1))
  = rjust 2 (chr "0") (str_of_int (year b1 mod 100))
  /\ etin (Some first_name) (Some last_name) (Some b1) g
     = etin (Some first_name) (Some last_name) (Some b2) g.
Proof.
  intros Hv1 Hv2 Hy1 Hy2 Hm Hd Hmod.
  destruct (valid_date_fields _ Hv1) as (Hr1 & _ & _).
  destruct (valid_date_fields _ Hv2) as (Hr2 & _ & _).
  split; [apply year_suffix_mod_100; lia|].
  rewrite !etin_supplied, !etin_of_valid by done.
  unfold etin_stub.
  rewrite (year_suffix_mod_100 (year b1)), (year_suffix_mod_100 (year b2))
    by lia.
  by rewrite Hm, Hd, Hmod.
Qed.


End Provider.

(** ** Properties of [vat_id] *)

Lemma random_digit_is_digit (n : N) : is_digit (chr "0" + n mod 10) = true.
Proof.
  apply andb_true_iff. rewrite !N.leb_le. vm_compute chr.
  pose proof (N.mod_lt n 10 ltac:(lia)) as H.
  revert H. generalize (n mod 10). intros; lia.
Qed.

Lemma digit_round_trip (d : N) :
  is_digit d = true -> chr "0" + (d - chr "0") mod 10 = d.
Proof.
  intros [H1 H2]%andb_true_iff. rewrite N.leb_le in H1, H2.
  vm_compute chr in *. rewrite N.mod_small; lia.
Qed.

(** One run of [vat_id]: the first number drawn picks the format, the next
    nine fill its nine [#]. *)
Lemma vat_id_run (t : nat -> N) (k : nat) :
  vat_id {| tape := t; cursor := k |}
  = (Return (py "DE" ++ ((fun i => chr "0" + t (i + k)%nat mod 10)
                           <$> [1; 2; 3; 4; 5; 6; 7; 8; 9]%nat)),
     {| tape := t; cursor := 10 + k |}).
Proof.
  unfold vat_id, random_element, vat_id_formats, mbind, Gen_bind, draw.
  cbn [tape cursor length].
  rewrite Nat.mod_1_r.
  cbv -[N.add N.modulo]. reflexivity.
Qed.

(** C9: every call of [vat_id] returns the prefix [DE] followed by nine
    decimal digits, eleven characters in all; and the digits are bound by no
    relation: every string of nine decimal digits after [DE] is returned for
    some state of the random source. *)
Theorem vat_id_DE_nine_digits :
  (forall g : rng,
      exists (digits : str) (g' : rng),
        vat_id g = (Return (py "DE" ++ digits), g')
        /\ length digits = 9%nat
        /\ Forall (fun c => is_digit c = true) digits
        /\ length (py "DE" ++ digits) = 11%nat)
  /\ (forall digits : str,
        length digits = 9%nat ->
        Forall (fun c => is_digit c = true) digits ->
        exists g : rng, fst (vat_id g) = Return (py "DE" ++ digits)).
Proof.
  split.
  - intros [t k]. eexists _, _. rewrite vat_id_run.
    split_and!; [reflexivity|reflexivity| |reflexivity].
    cbn [fmap list_fmap]. repeat constructor; apply random_digit_is_digit.
  - intros digits Hlen Hd.
    exists {| tape := fun i => nth (i - 1) digits 0 - chr "0"; cursor := 0 |}.
    rewrite vat_id_run.
    do 10 (destruct digits as [|? digits]; try discriminate Hlen).
    cbn [fst fmap list_fmap nth Nat.add Nat.sub].
    repeat (apply Forall_cons in Hd as [? Hd]).
    rewrite !digit_round_trip by done. reflexivity.
Qed.

(** ** Determinism of [etin] *)

(** C8: when the first name, the last name and the birth date are all
    supplied, the result of [etin] is fixed by these three arguments: it is
    the same for every state of the generator and for every choice of the
    random collaborators, and the state of the generator is left as it was;
    in general the collaborators are consulted for the omitted arguments
    only. *)
Theorem etin_deterministic_when_supplied
    (nfkd : list N -> list N) (combining : N -> N) (unicode_upper : N -> list N)
    (first_name last_name : str) (birthday : date) :
  (exists r : result (list N),
      forall (gen_first gen_last : Gen (list N)) (gen_birth : Gen date)
             (g : rng),
        etin nfkd combining unicode_upper gen_first gen_last gen_birth
             (Some first_name) (Some last_name) (Some birthday) g
        = (r, g))
  /\ (forall (gen_first gen_last : Gen (list N)) (gen_birth : Gen date)
             (first last : option (list N)) (birth : option date) (g : rng),
        etin nfkd combining unicode_upper gen_first gen_last gen_birth
             first last birth g
        = (f ← or_default first gen_first;
           l ← or_default last gen_last;
           b ← or_default birth gen_birth;
           etin nfkd combining unicode_upper gen_first gen_last gen_birth
                (Some f) (Some l) (Some b)) g).
Proof.
  split.
  - exists (etin_of nfkd combining unicode_upper first_name last_name birthday).
    intros. apply etin_supplied.
  - intros. apply etin_defaults.
Qed.

(** ** The worked example and other runs *)

(** C5: at the birth date 0005-03-05, a valid date, [etin] returns
    [MLLRHNSA5C05A], 13 characters and not 14: the year suffix [5] is one
    character. *)
Theorem etin_year_5_has_13_characters :
  valid_date {| year := 5; month := 3; day := 5 |} = true
  /\ etin nfkd_u_diaeresis combining_diaeresis upper_identity
          (mret Hans) (mret Mueller) (mret birthday_1987_03_05)
          (Some Hans) (Some Mueller)
          (Some {| year := 5; month := 3; day := 5 |}) rng0
     = (Return (py "MLLRHNSA5C05A"), rng0)
  /\ length (py "MLLRHNSA5C05A") = 13%nat.
Proof. split_and!; vm_compute; reflexivity. Qed.

(** ** Runs on the Unicode data of the example *)

Example replace_examples :
  replace (py "Sch") (py "Y") (py "SchSch ScSch sch") = py "YY ScY sch"
  /\ replace (py "von ") (py "") (py "von Braun") = py "Braun"
  /\ str_of_int 1987 = py "1987"
  /\ last_chars 2 (str_of_int 1987) = py "87"
  /\ last_chars 2 (str_of_int 5) = py "5"
  /\ rjust 2 (chr "0") (str_of_int 5) = py "05".
Proof. split_and!; vm_compute; reflexivity. Qed.

Example quartet_examples :
  let quartet :=
    _etin_name_quartet nfkd_u_diaeresis combining_diaeresis upper_identity in
  quartet (py "Schmidt") = py "YMDT"
  /\ quartet (py "Hans-Dieter") = py "HNSD"
  /\ quartet (py "Ed") = py "DEXX"
  /\ quartet (py "Braun") = py "BRNU"
  /\ quartet (py "von Braun") = py "VNBR"
  /\ quartet (py "de Boer") = py "DBRE"
  /\ quartet (py "zu Ems") = py "ZMSE".
Proof. cbv zeta. split_and!; vm_compute; reflexivity. Qed.

Lemma quartet_without_letters :
  _etin_name_quartet nfkd_u_diaeresis combining_diaeresis upper_identity
    (py "12-3") = py "XXXX".
Proof.
  apply (quartet_four_uppercase_letters
           nfkd_u_diaeresis combining_diaeresis upper_identity (py "12-3")).
  reflexivity.
Defined.

Lemma check_character_of_MLLRHNSA87C05 :
  length (py "MLLRHNSA87C05") = 13%nat
  /\ _etin_check_character (py "MLLRHNSA87C05")
     = Return [letter_of (weighted_sum (py "MLLRHNSA87C05") mod 26)].
Proof.
  split; [reflexivity|].
  apply (check_character_is_weighted_sum (py "MLLRHNSA87C05"));
    [reflexivity|].
  vm_compute. repeat constructor.
Defined.

Lemma etin_Mueller_Hans_run :
  etin nfkd_u_diaeresis combining_diaeresis upper_identity
       (mret Hans) (mret Mueller) (mret birthday_1987_03_05)
       (Some Hans) (Some Mueller) (Some birthday_1987_03_05) rng0
  = (Return (py "MLLRHNSA87C05" ++ py "K"), rng0).
Proof.
  apply (etin_Mueller_Hans_1987_03_05
           nfkd_u_diaeresis combining_diaeresis upper_identity
           (mret Hans) (mret Mueller) (mret birthday_1987_03_05) rng0).
  - reflexivity.
  - reflexivity.
  - vm_compute. discriminate.
  - vm_compute. repeat constructor.
Defined.

Lemma etin_round_trip_run :
  exists e : str,
    etin nfkd_u_diaeresis combining_diaeresis upper_identity
         (mret Hans) (mret Mueller) (mret birthday_1987_03_05)
         (Some Hans) (Some Mueller) (Some birthday_1987_03_05) rng0
    = (Return e, rng0)
    /\ _etin_check_character (take (length e - 1) e)
       = Return (last_chars 1 e).
Proof.
  apply (proj2 (etin_check_character_round_trip
                  nfkd_u_diaeresis combining_diaeresis upper_identity
                  (mret Hans) (mret Mueller) (mret birthday_1987_03_05))).
  reflexivity.
Defined.

Lemma von_Braun_keeps_the_prefix_letters :
  exists letters : str,
    name_letters nfkd_u_diaeresis combining_diaeresis upper_identity
      (py "von Braun")
    = List.filter cls_A_Z (upper upper_identity (py "von ")) ++ letters
    /\ List.filter cls_A_Z (upper upper_identity (py "von ")) <> []
    /\ _etin_name_quartet nfkd_u_diaeresis combining_diaeresis upper_identity
         (py "von Braun")
       = quartet_spec
           (List.filter cls_A_Z (upper upper_identity (py "von ")) ++ letters).
Proof.
  apply (proj2 (prefix_stripping_has_no_effect
                  nfkd_u_diaeresis combining_diaeresis upper_identity
                  (py "von Braun")) (py "von ") (py "Braun")).
  - apply list_elem_of_further, list_elem_of_here.
  - reflexivity.
Defined.

Lemma etin_month_13_raises :
  etin nfkd_u_diaeresis combining_diaeresis upper_identity
       (mret Hans) (mret Mueller) (mret birthday_1987_03_05)
       (Some Hans) (Some Mueller)
       (Some {| year := 1987; month := 13; day := 5 |}) rng0
  = (Raise (KeyError_int 13), rng0).
Proof.
  apply (proj2 (etin_month_letter_or_KeyError
                  nfkd_u_diaeresis combining_diaeresis upper_identity
                  (mret Hans) (mret Mueller) (mret birthday_1987_03_05)
                  Hans Mueller {| year := 1987; month := 13; day := 5 |}
                  rng0)).
  simpl. lia.
Defined.

Lemma etin_year_5_run :
  valid_date {| year := 5; month := 3; day := 5 |} = true
  /\ exists e : str,
       etin nfkd_u_diaeresis combining_diaeresis upper_identity
            (mret Hans) (mret Mueller) (mret birthday_1987_03_05)
            (Some Hans) (Some Mueller)
            (Some {| year := 5; month := 3; day := 5 |}) rng0
       = (Return e, rng0)
       /\ ((1 <= 5 <= 9)%Z ->
           length (last_chars 2 (str_of_int 5)) = 1%nat
           /\ length e = 13%nat)
       /\ ((10 <= 5)%Z ->
           length (last_chars 2 (str_of_int 5)) = 2%nat
           /\ length e = 14%nat)
       /\ (length e = 14%nat <-> (10 <= 5)%Z).
Proof.
  split; [reflexivity|].
  apply (etin_single_digit_year_length_13
           nfkd_u_diaeresis combining_diaeresis upper_identity
           (mret Hans) (mret Mueller) (mret birthday_1987_03_05)
           Hans Mueller {| year := 5; month := 3; day := 5 |} rng0).
  reflexivity.
Defined.

Lemma vat_id_DE123456789_is_drawn :
  exists g : rng, fst (vat_id g) = Return (py "DE" ++ py "123456789").
Proof.
  apply (proj2 vat_id_DE_nine_digits (py "123456789")).
  - reflexivity.
  - vm_compute. repeat constructor.
Defined.

(** ** More on the check character *)

Lemma foldr_add_app (l1 l2 : list Z) :
  (foldr Z.add 0 (l1 ++ l2) = foldr Z.add 0 l1 + foldr Z.add 0 l2)%Z.
Proof. induction l1 as [|x l1 IH]; simpl; lia. Qed.

Lemma table_weight_parity (i : nat) (c : char) :
  table_weight i c
  = if Nat.even i then table_weight 0 c else table_weight 1 c.
Proof. unfold table_weight. destruct (Nat.even i); reflexivity. Qed.

(** The weighted sum around one position. *)
Lemma weighted_sum_split (pre post : str) (c : char) :
  weighted_sum (pre ++ c :: post)
  = (weighted_sum pre + table_weight (length pre) c
     + foldr Z.add 0
         (imap (fun n => table_weight (length pre + S n)) post))%Z.
Proof.
  unfold weighted_sum. rewrite imap_app, foldr_add_app, imap_cons.
  simpl. rewrite Nat.add_0_r. rewrite Z.add_assoc. do 3 f_equal.
Qed.

Lemma not_stub_char_no_weight (c : char) :
  is_stub_char c = false ->
  check_weights_0 !! c = None /\ check_weights_1 !! c = None.
Proof.
  intros H. unfold is_stub_char in H.
  apply orb_false_iff in H as [H1 H2].
  rewrite <- not_true_iff_false, in_range_spec in H1, H2.
  vm_compute chr in H1, H2.
  split; apply not_elem_of_list_to_map_1;
    match goal with
    | |- _ ∉ ?l => let l' := eval vm_compute in l in change l with l'
    end;
    rewrite !not_elem_of_cons; split_and!; try lia; apply not_elem_of_nil.
Qed.

(** X1: [_etin_check_weight] returns a weight between 0 and 25 for a letter
    A-Z or a digit, at every position, and raises the [KeyError] of the
    character for every other character; the weight depends on the position
    through its parity only, and at an even position it is the rank of the
    letter in the alphabet or the value of the digit. *)
Theorem _etin_check_weight_total (position : nat) (value : char) :
  (is_stub_char value = true ->
   exists w : Z,
     _etin_check_weight position value = Return w
     /\ (0 <= w <= 25)%Z
     /\ _etin_check_weight (position + 2) value = Return w
     /\ (Nat.even position = true ->
         cls_A_Z value = true -> w = Z.of_N (value - chr "A"))
     /\ (Nat.even position = true ->
         is_digit value = true -> w = Z.of_N (value - chr "0")))
  /\ (is_stub_char value = false ->
      _etin_check_weight position value = Raise (KeyError_str [value])).
Proof.
  split.
  - intros Hc. exists (table_weight position value).
    destruct (table_lookup position value Hc) as [_ Hb].
    rewrite !_etin_check_weight_spec by done.
    split; [done|]. split; [done|]. split.
    { f_equal. rewrite (table_weight_parity position),
        (table_weight_parity (position + 2)).
      replace (position + 2)%nat with (S (S position)) by lia.
      by rewrite Nat.even_succ_succ. }
    pose proof (N_forall_below
      (fun c =>
         implb (cls_A_Z c) (table_weight 0 c =? Z.of_N (c - chr "A"))%Z
         && implb (is_digit c) (table_weight 0 c =? Z.of_N (c - chr "0"))%Z)
      91 ltac:(vm_compute; reflexivity) value
      (is_stub_char_bound value Hc)) as H.
    cbv beta in H. apply andb_true_iff in H as [HA HD].
    rewrite table_weight_parity.
    split; intros -> Hk; [rewrite Hk in HA|rewrite Hk in HD];
      by apply Z.eqb_eq.
  - intros Hc. destruct (not_stub_char_no_weight value Hc) as [H0 H1].
    unfold _etin_check_weight, getitem_str. cbv zeta.
    destruct (position mod 2 =? 0)%nat; [by rewrite H0|by rewrite H1].
Qed.

Lemma sum_check_weights_KeyError (pre post : str) (c : char) :
  Forall (fun c => is_stub_char c = true) pre ->
  is_stub_char c = false ->
  forall (index : nat) (_sum : Z),
    sum_check_weights index (pre ++ c :: post) _sum
    = Raise (KeyError_str [c]).
Proof.
  intros Hpre Hc. induction Hpre as [|a pre Ha _ IH]; intros index _sum.
  - cbn [app sum_check_weights].
    destruct (_etin_check_weight_total index c) as [_ H].
    by rewrite (H Hc).
  - cbn [app sum_check_weights].
    rewrite _etin_check_weight_spec by done.
    unfold mbind, result_bind. apply IH.
Qed.

(** X2: when the stub holds a character that is neither a letter A-Z nor a
    digit, [_etin_check_character] raises the [KeyError] of the first such
    character; lower-case letters are among them. *)
Theorem _etin_check_character_KeyError (pre post : str) (c : char) :
  Forall (fun c => is_stub_char c = true) pre ->
  is_stub_char c = false ->
  _etin_check_character (pre ++ c :: post) = Raise (KeyError_str [c]).
Proof.
  intros Hpre Hc. unfold _etin_check_character.
  by rewrite sum_check_weights_KeyError.
Qed.

(** X3: on a string of letters A-Z and digits of any length, the empty one
    included, [_etin_check_character] returns one letter A-Z, the letter of
    the weighted sum modulo 26; for the empty string it is [A]. *)
Theorem _etin_check_character_any_length (etin_stub : str) :
  Forall (fun c => is_stub_char c = true) etin_stub ->
  exists letter : char,
    _etin_check_character etin_stub = Return [letter]
    /\ cls_A_Z letter = true
    /\ letter = letter_of (weighted_sum etin_stub mod 26)
    /\ (etin_stub = [] -> letter = chr "A").
Proof.
  intros Hs. eexists. split; [by apply _etin_check_character_spec|].
  split; [|split; [reflexivity|]].
  - apply index_ascii_uppercase, Z.mod_pos_bound. lia.
  - intros ->. reflexivity.
Qed.

Lemma digit_as_letter_weight (i : nat) (c : char) :
  is_stub_char c = true ->
  is_stub_char (digit_as_letter c) = true
  /\ table_weight i (digit_as_letter c) = table_weight i c.
Proof.
  intros Hc.
  pose proof (N_forall_below
    (fun c =>
       implb (is_stub_char c)
         (is_stub_char (digit_as_letter c)
          && (table_weight 0 (digit_as_letter c) =? table_weight 0 c)%Z
          && (table_weight 1 (digit_as_letter c) =? table_weight 1 c)%Z))
    91 ltac:(vm_compute; reflexivity) c (is_stub_char_bound c Hc)) as H.
  cbv beta in H. rewrite Hc in H. cbn [implb] in H.
  apply andb_true_iff in H as [[H H0]%andb_true_iff H1].
  apply Z.eqb_eq in H0, H1. split; [done|].
  rewrite (table_weight_parity i (digit_as_letter c)),
    (table_weight_parity i c).
  by destruct (Nat.even i).
Qed.

(** X4: both tables give the digit [d] the weight of the letter of rank [d],
    so reading every digit of a stub as that letter ([0] as [A], ..., [9] as
    [J]) leaves the check character as it is. *)
Theorem check_character_reads_digits_as_letters (etin_stub : str) :
  Forall (fun c => is_stub_char c = true) etin_stub ->
  _etin_check_character (digit_as_letter <$> etin_stub)
  = _etin_check_character etin_stub.
Proof.
  intros Hs.
  assert (Hs' : Forall (fun c => is_stub_char c = true)
                       (digit_as_letter <$> etin_stub)).
  { apply Forall_fmap. eapply Forall_impl; [exact Hs|].
    intros c Hc. by apply (digit_as_letter_weight 0). }
  rewrite !_etin_check_character_spec by done.
  do 4 f_equal. unfold weighted_sum. rewrite imap_fmap. f_equal.
  apply imap_ext. intros i c Hic. simpl.
  apply digit_as_letter_weight.
  rewrite Forall_forall in Hs. apply Hs, list_elem_of_lookup. eauto.
Qed.

Lemma table_weight_injective (i : nat) (c c' : char) :
  same_kind c c' = true -> c <> c' ->
  table_weight i c <> table_weight i c'.
Proof.
  intros Hk Hne.
  assert (Hc : c < 91 /\ c' < 91).
  { unfold same_kind in Hk.
    apply orb_true_iff in Hk as [Hk|Hk]; apply andb_true_iff in Hk as [H1 H2];
      apply in_range_spec in H1, H2; vm_compute chr in H1, H2; lia. }
  assert (H : weights_apart c = true).
  { apply (N_forall_below weights_apart 91); [vm_compute; reflexivity|].
    apply Hc. }
  unfold weights_apart in H.
  pose proof (N_forall_below _ 91 H c' (proj2 Hc)) as H'.
  cbv beta in H'. rewrite Hk in H'.
  apply N.eqb_neq in Hne. rewrite Hne in H'. cbn [negb andb implb] in H'.
  apply andb_true_iff in H' as [H0 H1].
  apply negb_true_iff, Z.eqb_neq in H0, H1.
  rewrite (table_weight_parity i c), (table_weight_parity i c').
  by destruct (Nat.even i).
Qed.

Lemma letter_of_mod_injective (a b : Z) :
  (0 < Z.abs (a - b) < 26)%Z ->
  letter_of (a mod 26) <> letter_of (b mod 26).
Proof.
  intros Hd Heq. unfold letter_of in Heq.
  pose proof (Z.mod_pos_bound a 26 ltac:(lia)).
  pose proof (Z.mod_pos_bound b 26 ltac:(lia)).
  assert (Hm : (a mod 26 = b mod 26)%Z) by lia.
  assert (H26 : ((a - b) mod 26 = 0)%Z).
  { rewrite Zminus_mod, Hm, Z.sub_diag. reflexivity. }
  apply Z.mod_divide in H26 as [k Hk]; lia.
Qed.

(** X5: the check character tells one letter from another at every
    position, and one digit from another: when a single character of a stub
    is replaced by a different character of the same kind, the check
    character changes. *)
Theorem check_character_detects_substitution (pre post : str) (c c' : char) :
  Forall (fun c => is_stub_char c = true) pre ->
  Forall (fun c => is_stub_char c = true) post ->
  same_kind c c' = true ->
  c <> c' ->
  _etin_check_character (pre ++ c :: post)
  <> _etin_check_character (pre ++ c' :: post).
Proof.
  intros Hpre Hpost Hk Hne.
  assert (Hcc : is_stub_char c = true /\ is_stub_char c' = true).
  { unfold same_kind in Hk. unfold is_stub_char.
    apply orb_true_iff in Hk as [Hk|Hk]; apply andb_true_iff in Hk as [H1 H2].
    - unfold cls_A_Z in H1, H2. by rewrite H1, H2.
    - unfold is_digit in H1, H2. by rewrite H1, H2, !orb_true_r. }
  destruct Hcc as [Hc Hc'].
  rewrite !_etin_check_character_spec
    by (apply Forall_app; split; [done|by apply Forall_cons]).
  intros [= Heq]. revert Heq. apply letter_of_mod_injective.
  rewrite !weighted_sum_split.
  pose proof (table_weight_injective (length pre) c c' Hk Hne).
  destruct (table_lookup (length pre) c Hc) as [_ ?].
  destruct (table_lookup (length pre) c' Hc') as [_ ?].
  lia.
Qed.

(** X6: the letters W, X, Y and Z have the same weight in both tables, so
    the check character does not notice when two neighbours among them
    change places. *)
Theorem check_character_misses_WXYZ_transposition
    (pre post : str) (a b : char) :
  Forall (fun c => is_stub_char c = true) pre ->
  Forall (fun c => is_stub_char c = true) post ->
  in_range "W" "Z" a = true ->
  in_range "W" "Z" b = true ->
  _etin_check_character (pre ++ a :: b :: post)
  = _etin_check_character (pre ++ b :: a :: post).
Proof.
  intros Hpre Hpost Ha Hb.
  assert (HW : forall c, in_range "W" "Z" c = true ->
                 is_stub_char c = true
                 /\ forall i, table_weight i c = Z.of_N (c - chr "A")).
  { intros c Hc.
    assert (Hlt : c < 91)
      by (apply in_range_spec in Hc; vm_compute chr in Hc; lia).
    pose proof (N_forall_below
      (fun c =>
         implb (in_range "W" "Z" c)
           (is_stub_char c
            && (table_weight 0 c =? Z.of_N (c - chr "A"))%Z
            && (table_weight 1 c =? Z.of_N (c - chr "A"))%Z))
      91 ltac:(vm_compute; reflexivity) c Hlt) as H.
    cbv beta in H. rewrite Hc in H. cbn [implb] in H.
    apply andb_true_iff in H as [[H H0]%andb_true_iff H1].
    apply Z.eqb_eq in H0, H1. split; [done|].
    intros i. rewrite table_weight_parity. by destruct (Nat.even i). }
  destruct (HW a Ha) as [Hsa Hwa]. destruct (HW b Hb) as [Hsb Hwb].
  rewrite !_etin_check_character_spec
    by (apply Forall_app; split; [done|];
        do 2 (apply Forall_cons; split; [done|]); done).
  do 4 f_equal. rewrite !weighted_sum_split.
  rewrite !imap_cons. cbn [foldr]. rewrite !Hwa, !Hwb. lia.
Qed.

(** ** Typing errors in an eTIN *)

Section Typos.

Variable unicodedata_normalize_NFKD : str -> str.
Variable unicodedata_combining : char -> N.
Variable unicode_upper : char -> str.
Variable generator_first_name : Gen (list N).
Variable generator_last_name : Gen (list N).
Variable generator_date_of_birth : Gen date.

(** X11: a wrong letter among the eight name letters of an eTIN is noticed:
    when one of the first eight characters of the eTIN that [etin] returned
    for a valid birth date is replaced by a different letter, the last
    character is no longer the check character of the characters before
    it. *)
Theorem etin_wrong_name_letter_is_detected
    (first_name last_name : str) (birthday : date) (g : rng)
    (i : nat) (c' : char) :
  valid_date birthday = true ->
  (i < 8)%nat ->
  cls_A_Z c' = true ->
  exists e : str,
    etin unicodedata_normalize_NFKD unicodedata_combining unicode_upper
         generator_first_name generator_last_name generator_date_of_birth
         (Some first_name) (Some last_name) (Some birthday) g
    = (Return e, g)
    /\ (e !! i <> Some c' ->
        _etin_check_character (take (length (<[i:=c']> e) - 1) (<[i:=c']> e))
        <> Return (last_chars 1 (<[i:=c']> e))).
Proof.
  intros Hv Hi Hc'.
  set (stub := etin_stub unicodedata_normalize_NFKD unicodedata_combining
                 unicode_upper first_name last_name birthday).
  destruct (etin_stub_chars unicodedata_normalize_NFKD unicodedata_combining
              unicode_upper first_name last_name _ Hv) as [Hs Hlen].
  fold stub in Hs, Hlen.
  assert (Hlen' : (12 <= length stub)%nat)
    by (destruct (year birthday <? 10)%Z; lia).
  eexists. rewrite etin_supplied, etin_of_valid by done. fold stub.
  split; [reflexivity|]. intros Hne.
  set (chk := letter_of (weighted_sum stub mod 26)) in *.
  rewrite insert_app_l by lia.
  rewrite length_app, length_insert. simpl.
  replace (length stub + 1 - 1)%nat with (length (<[i:=c']> stub))
    by (rewrite length_insert; lia).
  rewrite take_app_length.
  unfold last_chars. rewrite length_app, length_insert. simpl.
  replace (length stub + 1 - 1)%nat with (length (<[i:=c']> stub))
    by (rewrite length_insert; lia).
  rewrite drop_app_length.
  destruct (lookup_lt_is_Some_2 stub i ltac:(lia)) as [c Hc].
  assert (Hcne : c <> c').
  { intros ->. apply Hne. rewrite lookup_app_l by lia. done. }
  assert (HcA : cls_A_Z c = true).
  { destruct (quartet_A_Z unicodedata_normalize_NFKD unicodedata_combining
                unicode_upper last_name) as [Hl1 Hl2].
    destruct (quartet_A_Z unicodedata_normalize_NFKD unicodedata_combining
                unicode_upper first_name) as [Hf1 Hf2].
    unfold stub, etin_stub in Hc. rewrite app_assoc in Hc.
    rewrite lookup_app_l in Hc by (rewrite length_app; lia).
    assert (HA : Forall (fun c => cls_A_Z c = true)
                   (_etin_name_quartet unicodedata_normalize_NFKD
                      unicodedata_combining unicode_upper last_name
                    ++ _etin_name_quartet unicodedata_normalize_NFKD
                         unicodedata_combining unicode_upper first_name))
      by (by apply Forall_app).
    rewrite Forall_forall in HA. apply HA.
    apply list_elem_of_lookup. eauto. }
  rewrite insert_take_drop by lia.
  subst chk. rewrite <- (_etin_check_character_spec stub Hs).
  replace (_etin_check_character stub)
    with (_etin_check_character (take i stub ++ c :: drop (S i) stub))
    by (by rewrite take_drop_middle).
  apply not_eq_sym.
  apply check_character_detects_substitution.
  - by apply Forall_take.
  - by apply Forall_drop.
  - unfold same_kind. by rewrite HcA, Hc'.
  - done.
Qed.

End Typos.

(** ** Runs of the further properties *)

Lemma check_weight_of_lower_case_a :
  _etin_check_weight 3 (chr "a") = Raise (KeyError_str [chr "a"]).
Proof.
  apply (proj2 (_etin_check_weight_total 3 (chr "a"))). reflexivity.
Defined.

Lemma check_character_of_MLLRans :
  _etin_check_character (py "MLLR" ++ chr "a" :: py "ns")
  = Raise (KeyError_str [chr "a"]).
Proof.
  apply (_etin_check_character_KeyError (py "MLLR") (py "ns") (chr "a")).
  - vm_compute. repeat constructor.
  - reflexivity.
Defined.

Lemma check_character_of_AB12 :
  exists letter : char,
    _etin_check_character (py "AB12") = Return [letter]
    /\ cls_A_Z letter = true
    /\ letter = letter_of (weighted_sum (py "AB12") mod 26)
    /\ (py "AB12" = [] -> letter = chr "A").
Proof.
  apply (_etin_check_character_any_length (py "AB12")).
  vm_compute. repeat constructor.
Defined.

Lemma check_character_of_MLLRHNSAIHCAF :
  _etin_check_character (digit_as_letter <$> py "MLLRHNSA87C05")
  = _etin_check_character (py "MLLRHNSA87C05").
Proof.
  apply (check_character_reads_digits_as_letters (py "MLLRHNSA87C05")).
  vm_compute. repeat constructor.
Defined.

Lemma check_character_H_for_K :
  _etin_check_character (py "MLLR" ++ chr "H" :: py "NSA87C05")
  <> _etin_check_character (py "MLLR" ++ chr "K" :: py "NSA87C05").
Proof.
  apply (check_character_detects_substitution
           (py "MLLR") (py "NSA87C05") (chr "H") (chr "K")).
  - vm_compute. repeat constructor.
  - vm_compute. repeat constructor.
  - reflexivity.
  - intros H. vm_compute in H. discriminate H.
Defined.

Lemma check_character_WX_for_XW :
  _etin_check_character (py "MLLR" ++ chr "W" :: chr "X" :: py "SA87C05")
  = _etin_check_character (py "MLLR" ++ chr "X" :: chr "W" :: py "SA87C05").
Proof.
  apply (check_character_misses_WXYZ_transposition
           (py "MLLR") (py "SA87C05") (chr "W") (chr "X")).
  - vm_compute. repeat constructor.
  - vm_compute. repeat constructor.
  - reflexivity.
  - reflexivity.
Defined.

Lemma quartet_of_Ed :
  _etin_name_quartet nfkd_u_diaeresis combining_diaeresis upper_identity
    (py "Ed")
  = consonants_of (py "ED") ++ reverse (vowels_of (py "ED"))
    ++ replicate 2 (chr "X").
Proof.
  apply (proj2 (quartet_pads_only_short_names
                  nfkd_u_diaeresis combining_diaeresis upper_identity
                  (py "Ed"))).
  vm_compute. lia.
Defined.

Lemma quartet_of_Schmidt_and_SCHMIDT :
  take 1 (_etin_name_quartet nfkd_u_diaeresis combining_diaeresis
            upper_identity (py "Schmidt")) = py "Y"
  /\ take 3 (_etin_name_quartet nfkd_u_diaeresis combining_diaeresis
               upper_identity (py "SCHMIDT")) = py "SCH".
Proof.
  split.
  - apply (proj1 (quartet_Sch_rule_is_case_sensitive
                    nfkd_u_diaeresis combining_diaeresis upper_identity
                    (py "Schmidt") (py "midt"))).
    reflexivity.
  - apply (proj1 (proj2 (quartet_Sch_rule_is_case_sensitive
                           nfkd_u_diaeresis combining_diaeresis upper_identity
                           (py "SCHMIDT") (py "MIDT")))).
    reflexivity.
Defined.

Lemma etin_pattern_run :
  exists e : str,
    etin nfkd_u_diaeresis combining_diaeresis upper_identity
         (mret Hans) (mret Mueller) (mret birthday_1987_03_05)
         (Some Hans) (Some Mueller) (Some birthday_1987_03_05) rng0
    = (Return e, rng0)
    /\ length e = 14%nat.
Proof.
  destruct (etin_pattern_from_year_10
              nfkd_u_diaeresis combining_diaeresis upper_identity
              (mret Hans) (mret Mueller) (mret birthday_1987_03_05)
              Hans Mueller birthday_1987_03_05 rng0)
    as (names & yd & dd & m & c & He & _ & _ & _ & _ & _ & _ & _ & _ & _ & Hl).
  - reflexivity.
  - simpl. lia.
  - eexists. split; [exact He|exact Hl].
Defined.

Lemma etin_1987_and_2087 :
  etin nfkd_u_diaeresis combining_diaeresis upper_identity
       (mret Hans) (mret Mueller) (mret birthday_1987_03_05)
       (Some Hans) (Some Mueller) (Some birthday_1987_03_05) rng0
  = etin nfkd_u_diaeresis combining_diaeresis upper_identity
         (mret Hans) (mret Mueller) (mret birthday_1987_03_05)
         (Some Hans) (Some Mueller)
         (Some {| year := 2087; month := 3; day := 5 |}) rng0.
Proof.
  apply (etin_drops_the_century
           nfkd_u_diaeresis combining_diaeresis upper_identity
           (mret Hans) (mret Mueller) (mret birthday_1987_03_05)
           Hans Mueller birthday_1987_03_05
           {| year := 2087; month := 3; day := 5 |} rng0);
    try reflexivity; simpl; lia.
Defined.

Lemma etin_with_K_for_M :
  exists e : str,
    etin nfkd_u_diaeresis combining_diaeresis upper_identity
         (mret Hans) (mret Mueller) (mret birthday_1987_03_05)
         (Some Hans) (Some Mueller) (Some birthday_1987_03_05) rng0
    = (Return e, rng0)
    /\ (e !! 0%nat <> Some (chr "K") ->
        _etin_check_character
          (take (length (<[0%nat:=chr "K"]> e) - 1) (<[0%nat:=chr "K"]> e))
        <> Return (last_chars 1 (<[0%nat:=chr "K"]> e))).
Proof.
  apply (etin_wrong_name_letter_is_detected
           nfkd_u_diaeresis combining_diaeresis upper_identity
           (mret Hans) (mret Mueller) (mret birthday_1987_03_05)
           Hans Mueller birthday_1987_03_05 rng0 0%nat (chr "K")).
  - reflexivity.
  - lia.
  - reflexivity.
Defined.
